(** * GrSamplerState: the sampler descriptor of third_party/skia/include/gpu

    A shallow embedding of [GrSamplerState.h].  The class is a plain record of
    fields with inline constructors, accessors and mutators; every member
    function becomes a function on the record.  A constructor is a function on
    the storage it runs in: C++ leaves the members it does not write with
    whatever that storage held, and the model keeps this visible by passing
    the storage in. *)

From Stdlib Require Import ZArith Bool Lia Ring.
From stdpp Require Import base tactics option list.

Local Open Scope Z_scope.

(** ** External collaborators: scalar, rectangle, matrix *)

(** [GrScalar] comes from GrTypes.h, which is not part of the sources at hand;
    it is a build-time choice between a float and a 16.16 fixed-point number.
    The header only uses the operations below, so they are taken as an
    interface. *)
Class ScalarOps (S : Type) := {
  scalar_zero : S;                (* GrScalar(), the literal 0 *)
  GR_Scalar1 : S;                 (* the constant one *)
  SkIntToScalar : Z -> S;         (* int to scalar conversion *)
  scalar_eq : S -> S -> bool;     (* operator== *)
  scalar_add : S -> S -> S;
  scalar_mul : S -> S -> S
}.

(** C++ [!=] on scalars. *)
Definition scalar_ne {S} `{ScalarOps S} (a b : S) : bool := negb (scalar_eq a b).

(** Modelled from the spec: GrRect is declared outside the sources at hand
    (GrRect.h).  The spec asks of it an empty state and access to the right
    edge; it is four edges, and [setEmpty] zeroes them. *)
Record GrRect (S : Type) := mkGrRect {
  fLeft : S;
  fTop : S;
  fRight : S;
  fBottom : S
}.
Arguments mkGrRect {S}.
Arguments fLeft {S}.
Arguments fTop {S}.
Arguments fRight {S}.
Arguments fBottom {S}.

Definition rect_right {S} (r : GrRect S) : S := fRight r.

Definition rect_setEmpty {S} `{ScalarOps S} (r : GrRect S) : GrRect S :=
  mkGrRect scalar_zero scalar_zero scalar_zero scalar_zero.

(** Modelled from the spec: GrMatrix is declared outside the sources at hand
    (GrMatrix.h).  The spec describes a 2D projective transform with
    identity-set, pre-concatenation and application to a point: a 3x3 matrix,
    row by row. *)
Record GrMatrix (S : Type) := mkGrMatrix {
  m00 : S; m01 : S; m02 : S;
  m10 : S; m11 : S; m12 : S;
  m20 : S; m21 : S; m22 : S
}.
Arguments mkGrMatrix {S}.
Arguments m00 {S}.
Arguments m01 {S}.
Arguments m02 {S}.
Arguments m10 {S}.
Arguments m11 {S}.
Arguments m12 {S}.
Arguments m20 {S}.
Arguments m21 {S}.
Arguments m22 {S}.

Definition mat_identity {S} `{ScalarOps S} : GrMatrix S :=
  mkGrMatrix GR_Scalar1 scalar_zero scalar_zero
             scalar_zero GR_Scalar1 scalar_zero
             scalar_zero scalar_zero GR_Scalar1.

Definition mat_setIdentity {S} `{ScalarOps S} (m : GrMatrix S) : GrMatrix S :=
  mat_identity.

(** A homogeneous column vector (x, y, w). *)
Record GrVec (S : Type) := mkGrVec { vx : S; vy : S; vw : S }.
Arguments mkGrVec {S}.
Arguments vx {S}.
Arguments vy {S}.
Arguments vw {S}.

Definition dot3 {S} `{ScalarOps S} (a b c x y z : S) : S :=
  scalar_add (scalar_add (scalar_mul a x) (scalar_mul b y)) (scalar_mul c z).

(** The matrix product [a * b]. *)
Definition mat_mul {S} `{ScalarOps S} (a b : GrMatrix S) : GrMatrix S :=
  mkGrMatrix
    (dot3 (m00 a) (m01 a) (m02 a) (m00 b) (m10 b) (m20 b))
    (dot3 (m00 a) (m01 a) (m02 a) (m01 b) (m11 b) (m21 b))
    (dot3 (m00 a) (m01 a) (m02 a) (m02 b) (m12 b) (m22 b))
    (dot3 (m10 a) (m11 a) (m12 a) (m00 b) (m10 b) (m20 b))
    (dot3 (m10 a) (m11 a) (m12 a) (m01 b) (m11 b) (m21 b))
    (dot3 (m10 a) (m11 a) (m12 a) (m02 b) (m12 b) (m22 b))
    (dot3 (m20 a) (m21 a) (m22 a) (m00 b) (m10 b) (m20 b))
    (dot3 (m20 a) (m21 a) (m22 a) (m01 b) (m11 b) (m21 b))
    (dot3 (m20 a) (m21 a) (m22 a) (m02 b) (m12 b) (m22 b)).

(** The transform of a column vector, [t' = X * t]. *)
Definition mat_apply {S} `{ScalarOps S} (x : GrMatrix S) (t : GrVec S) : GrVec S :=
  mkGrVec
    (dot3 (m00 x) (m01 x) (m02 x) (vx t) (vy t) (vw t))
    (dot3 (m10 x) (m11 x) (m12 x) (vx t) (vy t) (vw t))
    (dot3 (m20 x) (m21 x) (m22 x) (vx t) (vy t) (vw t)).

(** Modelled from the spec: GrMatrix::preConcat is defined outside the sources
    at hand.  The spec gives its contract: the result is old_matrix * m in
    matrix-multiplication order. *)
Definition mat_preConcat {S} `{ScalarOps S} (this m : GrMatrix S) : GrMatrix S :=
  mat_mul this m.

(** ** Outcomes of a call *)

(** A call either returns, stops at a failed assertion, or reads or writes
    outside an array. *)
Inductive outcome (A : Type) : Type :=
  | Ok (a : A)
  | AssertFailed
  | OutOfBounds.
Arguments Ok {A}.
Arguments AssertFailed {A}.
Arguments OutOfBounds {A}.

#[export] Instance outcome_ret : MRet outcome := fun A a => Ok a.
#[export] Instance outcome_bind : MBind outcome := fun A B f m =>
  match m with
  | Ok a => f a
  | AssertFailed => AssertFailed
  | OutOfBounds => OutOfBounds
  end.

(** Modelled from the spec: the GrAssert macro comes from GrConfig.h, outside
    the sources at hand.  The spec makes a violated assertion a fatal contract
    violation: execution halts there. *)
Definition GrAssert (cond : bool) : outcome unit :=
  if cond then Ok tt else AssertFailed.

(** ** Raw memory helpers *)

(** A [float] is only ever copied or zero-filled by this header, so it is
    carried as its 32-bit object representation. *)
Definition float : Type := Z.

(** [memcpy(dst, src, n * sizeof(float))] on arrays of floats. *)
Definition memcpy (dst src : list float) (n : nat) : outcome (list float) :=
  if (n <=? length src)%nat && (n <=? length dst)%nat
  then Ok (take n src ++ drop n dst)
  else OutOfBounds.

(** [memset(dst, 0, n * sizeof(float))]: every byte of the first [n] floats
    becomes zero. *)
Definition memset0 (dst : list float) (n : nat) : outcome (list float) :=
  if (n <=? length dst)%nat
  then Ok (replicate n (0 : float) ++ drop n dst)
  else OutOfBounds.

(** ** The enumerations *)

Inductive Filter : Type :=
  | kNearest_Filter
  | kBilinear_Filter
  | k4x4Downsample_Filter
  | kConvolution_Filter.

Inductive SampleMode : Type :=
  | kNormal_SampleMode
  | kRadial_SampleMode
  | kRadial2_SampleMode
  | kSweep_SampleMode.

Inductive WrapMode : Type :=
  | kClamp_WrapMode
  | kRepeat_WrapMode
  | kMirror_WrapMode.

#[export] Instance Filter_eq_dec : EqDecision Filter.
Proof. solve_decision. Defined.
#[export] Instance SampleMode_eq_dec : EqDecision SampleMode.
Proof. solve_decision. Defined.
#[export] Instance WrapMode_eq_dec : EqDecision WrapMode.
Proof. solve_decision. Defined.

Definition MAX_KERNEL_WIDTH : Z := 25.

(** Modelled from the spec: SkBool8 and SkToBool come from SkTypes.h, outside
    the sources at hand.  The spec has radial2PosRoot a boolean; the member is
    kept as the 8-bit integer its type names, written from a [bool] (0 or 1)
    and read back as "not zero". *)
Definition SkBool8 : Type := Z.
Definition SkToBool (x : SkBool8) : bool := negb (x =? 0).

(** Conversion of an [int] to [uint8_t]. *)
Definition to_uint8 (z : Z) : Z := z mod 256.

(** ** The class *)

Record GrSamplerState (S : Type) := mkGrSamplerState {
  fWrapX : WrapMode;
  fWrapY : WrapMode;
  fSampleMode : SampleMode;
  fFilter : Filter;
  fMatrix : GrMatrix S;
  fSwapRAndB : bool;
  fTextureDomain : GrRect S;
  fRadial2CenterX1 : S;
  fRadial2Radius0 : S;
  fRadial2PosRoot : SkBool8;
  fKernelWidth : Z;
  fImageIncrement : list float;
  fKernel : list float
}.
Arguments mkGrSamplerState {S}.
Arguments fWrapX {S}.
Arguments fWrapY {S}.
Arguments fSampleMode {S}.
Arguments fFilter {S}.
Arguments fMatrix {S}.
Arguments fSwapRAndB {S}.
Arguments fTextureDomain {S}.
Arguments fRadial2CenterX1 {S}.
Arguments fRadial2Radius0 {S}.
Arguments fRadial2PosRoot {S}.
Arguments fKernelWidth {S}.
Arguments fImageIncrement {S}.
Arguments fKernel {S}.

(** The arrays have their declared sizes. *)
Definition storage_ok {S} (s : GrSamplerState S) : Prop :=
  length (fKernel s) = Z.to_nat MAX_KERNEL_WIDTH /\
  length (fImageIncrement s) = 2%nat.

(** ** Member functions *)

Section Members.
Context {S : Type} `{ScalarOps S}.

Local Abbreviation State := (GrSamplerState S).

(** Assignment to one member; the others keep their values. *)
Definition set_fWrapX (v : WrapMode) (s : State) : State :=
  mkGrSamplerState v (fWrapY s) (fSampleMode s) (fFilter s) (fMatrix s)
    (fSwapRAndB s) (fTextureDomain s) (fRadial2CenterX1 s)
    (fRadial2Radius0 s) (fRadial2PosRoot s) (fKernelWidth s)
    (fImageIncrement s) (fKernel s).
Definition set_fWrapY (v : WrapMode) (s : State) : State :=
  mkGrSamplerState (fWrapX s) v (fSampleMode s) (fFilter s) (fMatrix s)
    (fSwapRAndB s) (fTextureDomain s) (fRadial2CenterX1 s)
    (fRadial2Radius0 s) (fRadial2PosRoot s) (fKernelWidth s)
    (fImageIncrement s) (fKernel s).
Definition set_fSampleMode (v : SampleMode) (s : State) : State :=
  mkGrSamplerState (fWrapX s) (fWrapY s) v (fFilter s) (fMatrix s)
    (fSwapRAndB s) (fTextureDomain s) (fRadial2CenterX1 s)
    (fRadial2Radius0 s) (fRadial2PosRoot s) (fKernelWidth s)
    (fImageIncrement s) (fKernel s).
Definition set_fFilter (v : Filter) (s : State) : State :=
  mkGrSamplerState (fWrapX s) (fWrapY s) (fSampleMode s) v (fMatrix s)
    (fSwapRAndB s) (fTextureDomain s) (fRadial2CenterX1 s)
    (fRadial2Radius0 s) (fRadial2PosRoot s) (fKernelWidth s)
    (fImageIncrement s) (fKernel s).
Definition set_fMatrix (v : GrMatrix S) (s : State) : State :=
  mkGrSamplerState (fWrapX s) (fWrapY s) (fSampleMode s) (fFilter s) v
    (fSwapRAndB s) (fTextureDomain s) (fRadial2CenterX1 s)
    (fRadial2Radius0 s) (fRadial2PosRoot s) (fKernelWidth s)
    (fImageIncrement s) (fKernel s).
Definition set_fSwapRAndB (v : bool) (s : State) : State :=
  mkGrSamplerState (fWrapX s) (fWrapY s) (fSampleMode s) (fFilter s)
    (fMatrix s) v (fTextureDomain s) (fRadial2CenterX1 s)
    (fRadial2Radius0 s) (fRadial2PosRoot s) (fKernelWidth s)
    (fImageIncrement s) (fKernel s).
Definition set_fTextureDomain (v : GrRect S) (s : State) : State :=
  mkGrSamplerState (fWrapX s) (fWrapY s) (fSampleMode s) (fFilter s)
    (fMatrix s) (fSwapRAndB s) v (fRadial2CenterX1 s)
    (fRadial2Radius0 s) (fRadial2PosRoot s) (fKernelWidth s)
    (fImageIncrement s) (fKernel s).
Definition set_fRadial2CenterX1 (v : S) (s : State) : State :=
  mkGrSamplerState (fWrapX s) (fWrapY s) (fSampleMode s) (fFilter s)
    (fMatrix s) (fSwapRAndB s) (fTextureDomain s) v
    (fRadial2Radius0 s) (fRadial2PosRoot s) (fKernelWidth s)
    (fImageIncrement s) (fKernel s).
Definition set_fRadial2Radius0 (v : S) (s : State) : State :=
  mkGrSamplerState (fWrapX s) (fWrapY s) (fSampleMode s) (fFilter s)
    (fMatrix s) (fSwapRAndB s) (fTextureDomain s) (fRadial2CenterX1 s)
    v (fRadial2PosRoot s) (fKernelWidth s)
    (fImageIncrement s) (fKernel s).
Definition set_fRadial2PosRoot (v : SkBool8) (s : State) : State :=
  mkGrSamplerState (fWrapX s) (fWrapY s) (fSampleMode s) (fFilter s)
    (fMatrix s) (fSwapRAndB s) (fTextureDomain s) (fRadial2CenterX1 s)
    (fRadial2Radius0 s) v (fKernelWidth s)
    (fImageIncrement s) (fKernel s).
Definition set_fKernelWidth (v : Z) (s : State) : State :=
  mkGrSamplerState (fWrapX s) (fWrapY s) (fSampleMode s) (fFilter s)
    (fMatrix s) (fSwapRAndB s) (fTextureDomain s) (fRadial2CenterX1 s)
    (fRadial2Radius0 s) (fRadial2PosRoot s) v
    (fImageIncrement s) (fKernel s).
Definition set_fImageIncrement (v : list float) (s : State) : State :=
  mkGrSamplerState (fWrapX s) (fWrapY s) (fSampleMode s) (fFilter s)
    (fMatrix s) (fSwapRAndB s) (fTextureDomain s) (fRadial2CenterX1 s)
    (fRadial2Radius0 s) (fRadial2PosRoot s) (fKernelWidth s)
    v (fKernel s).
Definition set_fKernel (v : list float) (s : State) : State :=
  mkGrSamplerState (fWrapX s) (fWrapY s) (fSampleMode s) (fFilter s)
    (fMatrix s) (fSwapRAndB s) (fTextureDomain s) (fRadial2CenterX1 s)
    (fRadial2Radius0 s) (fRadial2PosRoot s) (fKernelWidth s)
    (fImageIncrement s) v.

(** *** Accessors *)

Definition getWrapX (s : State) : WrapMode := fWrapX s.
Definition getWrapY (s : State) : WrapMode := fWrapY s.
Definition getSampleMode (s : State) : SampleMode := fSampleMode s.
Definition getMatrix (s : State) : GrMatrix S := fMatrix s.
Definition getTextureDomain (s : State) : GrRect S := fTextureDomain s.
Definition hasTextureDomain (s : State) : bool :=
  scalar_ne (SkIntToScalar 0) (rect_right (fTextureDomain s)).
Definition getFilter (s : State) : Filter := fFilter s.
Definition getKernelWidth (s : State) : Z := fKernelWidth s.
Definition getKernel (s : State) : list float := fKernel s.
Definition getImageIncrement (s : State) : list float := fImageIncrement s.
Definition swapsRAndB (s : State) : bool := fSwapRAndB s.

Definition isGradient (s : State) : bool :=
  bool_decide (kRadial_SampleMode = fSampleMode s) ||
  bool_decide (kRadial2_SampleMode = fSampleMode s) ||
  bool_decide (kSweep_SampleMode = fSampleMode s).

(** *** Mutators *)

Definition setWrapX (mode : WrapMode) (s : State) : State := set_fWrapX mode s.
Definition setWrapY (mode : WrapMode) (s : State) : State := set_fWrapY mode s.
Definition setSampleMode (mode : SampleMode) (s : State) : State :=
  set_fSampleMode mode s.
Definition setMatrix (matrix : GrMatrix S) (s : State) : State :=
  set_fMatrix matrix s.
Definition setTextureDomain (textureDomain : GrRect S) (s : State) : State :=
  set_fTextureDomain textureDomain s.
Definition setRAndBSwap (swap : bool) (s : State) : State :=
  set_fSwapRAndB swap s.
Definition preConcatMatrix (matrix : GrMatrix S) (s : State) : State :=
  set_fMatrix (mat_preConcat (fMatrix s) matrix) s.
Definition setFilter (filter : Filter) (s : State) : State :=
  set_fFilter filter s.

Definition setClampNoFilter (s : State) : State :=
  let s := set_fWrapX kClamp_WrapMode s in
  let s := set_fWrapY kClamp_WrapMode s in
  let s := set_fSampleMode kNormal_SampleMode s in
  let s := set_fFilter kNearest_Filter s in
  let s := set_fMatrix (mat_setIdentity (fMatrix s)) s in
  let s := set_fTextureDomain (rect_setEmpty (fTextureDomain s)) s in
  set_fSwapRAndB false s.

Definition getRadial2CenterX1 (s : State) : S := fRadial2CenterX1 s.
Definition getRadial2Radius0 (s : State) : S := fRadial2Radius0 s.
Definition isRadial2PosRoot (s : State) : bool := SkToBool (fRadial2PosRoot s).
Definition radial2IsDegenerate (s : State) : bool :=
  scalar_eq GR_Scalar1 (fRadial2CenterX1 s).

Definition setRadial2Params (centerX1 radius0 : S) (posRoot : bool)
    (s : State) : State :=
  let s := set_fRadial2CenterX1 centerX1 s in
  let s := set_fRadial2Radius0 radius0 s in
  set_fRadial2PosRoot (Z.b2z posRoot) s.

(** [kernel] and [imageIncrement] are pointers: [None] is NULL, [Some l] an
    array holding [l]. *)
Definition setConvolutionParams (kernelWidth : Z) (kernel : option (list float))
    (imageIncrement : option (list float)) (s : State) : outcome State :=
  _ ← GrAssert ((kernelWidth >=? 0) && (kernelWidth <=? MAX_KERNEL_WIDTH));
  let s := set_fKernelWidth (to_uint8 kernelWidth) s in
  s ← match kernel with
      | Some src =>
          k ← memcpy (fKernel s) src (Z.to_nat kernelWidth);
          mret (set_fKernel k s)
      | None => mret s
      end;
  match imageIncrement with
  | Some src =>
      i ← memcpy (fImageIncrement s) src 2;
      mret (set_fImageIncrement i s)
  | None =>
      i ← memset0 (fImageIncrement s) 2;
      mret (set_fImageIncrement i s)
  end.

(** *** Constructors

    [this] is the storage the object is built in.  The member-initialiser
    list value-initialises the three radial2 members; the body then runs. *)

Definition init_radial2 (this : State) : State :=
  let s := set_fRadial2CenterX1 scalar_zero this in
  let s := set_fRadial2Radius0 scalar_zero s in
  set_fRadial2PosRoot 0 s.

(** [GrSamplerState()] *)
Definition ctor_default (this : State) : State :=
  setClampNoFilter (init_radial2 this).

(** [GrSamplerState(Filter filter)] *)
Definition ctor_filter (filter : Filter) (this : State) : State :=
  let s := init_radial2 this in
  let s := set_fWrapX kClamp_WrapMode s in
  let s := set_fWrapY kClamp_WrapMode s in
  let s := set_fSampleMode kNormal_SampleMode s in
  let s := set_fFilter filter s in
  let s := set_fMatrix (mat_setIdentity (fMatrix s)) s in
  set_fTextureDomain (rect_setEmpty (fTextureDomain s)) s.

(** [GrSamplerState(WrapMode wx, WrapMode wy, Filter filter)] *)
Definition ctor_wrap_filter (wx wy : WrapMode) (filter : Filter)
    (this : State) : State :=
  let s := init_radial2 this in
  let s := set_fWrapX wx s in
  let s := set_fWrapY wy s in
  let s := set_fSampleMode kNormal_SampleMode s in
  let s := set_fFilter filter s in
  let s := set_fMatrix (mat_setIdentity (fMatrix s)) s in
  let s := set_fSwapRAndB false s in
  set_fTextureDomain (rect_setEmpty (fTextureDomain s)) s.

(** [GrSamplerState(WrapMode wx, WrapMode wy, const GrMatrix& matrix,
    Filter filter)] *)
Definition ctor_wrap_matrix_filter (wx wy : WrapMode) (matrix : GrMatrix S)
    (filter : Filter) (this : State) : State :=
  let s := init_radial2 this in
  let s := set_fWrapX wx s in
  let s := set_fWrapY wy s in
  let s := set_fSampleMode kNormal_SampleMode s in
  let s := set_fFilter filter s in
  let s := set_fMatrix matrix s in
  let s := set_fSwapRAndB false s in
  set_fTextureDomain (rect_setEmpty (fTextureDomain s)) s.

(** [GrSamplerState(WrapMode wx, WrapMode wy, SampleMode sample,
    const GrMatrix& matrix, Filter filter)] *)
Definition ctor_full (wx wy : WrapMode) (sample : SampleMode)
    (matrix : GrMatrix S) (filter : Filter) (this : State) : State :=
  let s := init_radial2 this in
  let s := set_fWrapX wx s in
  let s := set_fWrapY wy s in
  let s := set_fSampleMode sample s in
  let s := set_fMatrix matrix s in
  let s := set_fFilter filter s in
  let s := set_fSwapRAndB false s in
  set_fTextureDomain (rect_setEmpty (fTextureDomain s)) s.

(** A constructor call, one case per overload. *)
Inductive ctor_call : Type :=
  | New
  | NewFilter (filter : Filter)
  | NewWrapFilter (wx wy : WrapMode) (filter : Filter)
  | NewWrapMatrixFilter (wx wy : WrapMode) (matrix : GrMatrix S)
      (filter : Filter)
  | NewFull (wx wy : WrapMode) (sample : SampleMode) (matrix : GrMatrix S)
      (filter : Filter).

Definition construct (c : ctor_call) (this : State) : State :=
  match c with
  | New => ctor_default this
  | NewFilter f => ctor_filter f this
  | NewWrapFilter wx wy f => ctor_wrap_filter wx wy f this
  | NewWrapMatrixFilter wx wy m f => ctor_wrap_matrix_filter wx wy m f this
  | NewFull wx wy sm m f => ctor_full wx wy sm m f this
  end.

End Members.

(** ** Sequences of mutator calls *)

Section Calls.
Context {S : Type} `{ScalarOps S}.

(** One call of a mutator other than [setRadial2Params], with its
    arguments. *)
Inductive mutator_call : Type :=
  | CallSetWrapX (mode : WrapMode)
  | CallSetWrapY (mode : WrapMode)
  | CallSetSampleMode (mode : SampleMode)
  | CallSetMatrix (matrix : GrMatrix S)
  | CallSetTextureDomain (textureDomain : GrRect S)
  | CallSetRAndBSwap (swap : bool)
  | CallPreConcatMatrix (matrix : GrMatrix S)
  | CallSetFilter (filter : Filter)
  | CallSetClampNoFilter
  | CallSetConvolutionParams (kernelWidth : Z) (kernel : option (list float))
      (imageIncrement : option (list float)).

Definition run_call (c : mutator_call) (s : GrSamplerState S)
    : outcome (GrSamplerState S) :=
  match c with
  | CallSetWrapX mode => Ok (setWrapX mode s)
  | CallSetWrapY mode => Ok (setWrapY mode s)
  | CallSetSampleMode mode => Ok (setSampleMode mode s)
  | CallSetMatrix matrix => Ok (setMatrix matrix s)
  | CallSetTextureDomain textureDomain => Ok (setTextureDomain textureDomain s)
  | CallSetRAndBSwap swap => Ok (setRAndBSwap swap s)
  | CallPreConcatMatrix matrix => Ok (preConcatMatrix matrix s)
  | CallSetFilter filter => Ok (setFilter filter s)
  | CallSetClampNoFilter => Ok (setClampNoFilter s)
  | CallSetConvolutionParams kernelWidth kernel imageIncrement =>
      setConvolutionParams kernelWidth kernel imageIncrement s
  end.

(** The calls of a list, in order, each on the sampler the one before left;
    the first call that does not return ends the run. *)
Fixpoint run_calls (cs : list mutator_call) (s : GrSamplerState S)
    : outcome (GrSamplerState S) :=
  match cs with
  | [] => Ok s
  | c :: cs' =>
      match run_call c s with
      | Ok s1 => run_calls cs' s1
      | AssertFailed => AssertFailed
      | OutOfBounds => OutOfBounds
      end
  end.

Definition is_convolution_call (c : mutator_call) : bool :=
  match c with
  | CallSetConvolutionParams _ _ _ => true
  | _ => false
  end.

End Calls.

(** ** Scalars and objects to run the model on *)

(** Wrap-around of a signed 32-bit integer. *)
Definition wrap32 (z : Z) : Z := (z + 2 ^ 31) mod 2 ^ 32 - 2 ^ 31.

(** The fixed-point build: a scalar is a 32-bit integer counting 1/65536ths. *)
Definition FixedScalar : ScalarOps Z := {|
  scalar_zero := 0;
  GR_Scalar1 := 65536;
  SkIntToScalar n := wrap32 (Z.shiftl n 16);
  scalar_eq := Z.eqb;
  scalar_add a b := wrap32 (a + b);
  scalar_mul a b := wrap32 (Z.shiftr (a * b) 16)
|}.

(** Scalars without rounding: the integers. *)
Definition ExactScalar : ScalarOps Z := {|
  scalar_zero := 0;
  GR_Scalar1 := 1;
  SkIntToScalar n := n;
  scalar_eq := Z.eqb;
  scalar_add := Z.add;
  scalar_mul := Z.mul
|}.

(** One half in 16.16 fixed point. *)
Definition fixed_half : Z := 32768.

(** Storage left behind by an earlier object: red/blue swap on, a mirrored
    sweep gradient, a convolution kernel of width 3. *)
Definition stale_storage : GrSamplerState Z :=
  mkGrSamplerState kMirror_WrapMode kRepeat_WrapMode kSweep_SampleMode
    kConvolution_Filter
    (mkGrMatrix 131072 0 655360 0 196608 (-65536) 0 0 65536)
    true
    (mkGrRect 0 0 32768 32768)
    98304 16384 1
    3 [11; 12] (Z.of_nat <$> seq 100 25).

(** A kernel of three weights and an increment vector, as bit patterns. *)
Definition kernel3 : list float := [1048576000; 1056964608; 1048576000].
Definition increment_x : list float := [998244352; 0].

(** Two matrices and a point over the exact scalars. *)
Definition matA : GrMatrix Z := mkGrMatrix 2 0 5 0 3 (-1) 0 0 1.
Definition matB : GrMatrix Z := mkGrMatrix 0 (-1) 4 1 0 7 0 0 1.
Definition point_t : GrVec Z := mkGrVec 3 (-2) 1.

(** A rectangle whose right edge lies left of its left edge, below zero. *)
Definition inverted_rect : GrRect Z := mkGrRect 65536 0 (-131072) (-65536).

(** Two scalings and a point in 16.16 fixed point: x by one half, x by
    1/65536, and the point (2, 0, 1). *)
Definition fxA : GrMatrix Z := mkGrMatrix 32768 0 0 0 65536 0 0 0 65536.

(** * Properties *)

Section Properties.
Context {S : Type} `{ScalarOps S}.

Local Abbreviation State := (GrSamplerState S).

(** ** Construction and reset *)

(** The filter-only constructor never writes [fSwapRAndB]: the flag is what
    the storage held. *)
Lemma ctor_filter_swap_from_storage (filter : Filter) (this : State) :
  swapsRAndB (ctor_filter filter this) = fSwapRAndB this.
Proof. reflexivity. Qed.

(** On every other observable field the filter-only constructor agrees with
    the default constructor, and it stores the filter it is given. *)
Lemma ctor_filter_other_fields (filter : Filter) (this : State) :
  getWrapX (ctor_filter filter this) = getWrapX (ctor_default this) /\
  getWrapY (ctor_filter filter this) = getWrapY (ctor_default this) /\
  getSampleMode (ctor_filter filter this) = getSampleMode (ctor_default this) /\
  getMatrix (ctor_filter filter this) = getMatrix (ctor_default this) /\
  getTextureDomain (ctor_filter filter this)
    = getTextureDomain (ctor_default this) /\
  getFilter (ctor_filter filter this) = filter.
Proof. repeat split. Qed.

(** The four other constructors all clear the flag. *)
Lemma sibling_ctors_clear_swap (this : State) (wx wy : WrapMode)
    (sample : SampleMode) (matrix : GrMatrix S) (filter : Filter) :
  swapsRAndB (ctor_default this) = false /\
  swapsRAndB (ctor_wrap_filter wx wy filter this) = false /\
  swapsRAndB (ctor_wrap_matrix_filter wx wy matrix filter this) = false /\
  swapsRAndB (ctor_full wx wy sample matrix filter this) = false.
Proof. repeat split. Qed.

(** C4: whatever the sampler held, after [setClampNoFilter] its wrap modes,
    sample mode, filter, matrix, texture domain and swap flag are those of a
    default-constructed sampler: clamp, clamp, normal, nearest, identity,
    empty, false. *)
Theorem setClampNoFilter_is_default (s this : State) :
  (getWrapX (setClampNoFilter s) = getWrapX (ctor_default this) /\
   getWrapY (setClampNoFilter s) = getWrapY (ctor_default this) /\
   getSampleMode (setClampNoFilter s) = getSampleMode (ctor_default this) /\
   getFilter (setClampNoFilter s) = getFilter (ctor_default this) /\
   getMatrix (setClampNoFilter s) = getMatrix (ctor_default this) /\
   getTextureDomain (setClampNoFilter s)
     = getTextureDomain (ctor_default this) /\
   swapsRAndB (setClampNoFilter s) = swapsRAndB (ctor_default this)) /\
  (getWrapX (ctor_default this) = kClamp_WrapMode /\
   getWrapY (ctor_default this) = kClamp_WrapMode /\
   getSampleMode (ctor_default this) = kNormal_SampleMode /\
   getFilter (ctor_default this) = kNearest_Filter /\
   getMatrix (ctor_default this) = mat_identity /\
   getTextureDomain (ctor_default this)
     = mkGrRect scalar_zero scalar_zero scalar_zero scalar_zero /\
   swapsRAndB (ctor_default this) = false).
Proof.
  split; repeat split.
Qed.

(** C5: [setClampNoFilter] leaves the radial2 members (centerX1, radius0,
    posRoot) and the convolution members (kernelWidth, kernel,
    imageIncrement) exactly as they were. *)
Theorem setClampNoFilter_frame (s : State) :
  getRadial2CenterX1 (setClampNoFilter s) = getRadial2CenterX1 s /\
  getRadial2Radius0 (setClampNoFilter s) = getRadial2Radius0 s /\
  fRadial2PosRoot (setClampNoFilter s) = fRadial2PosRoot s /\
  isRadial2PosRoot (setClampNoFilter s) = isRadial2PosRoot s /\
  getKernelWidth (setClampNoFilter s) = getKernelWidth s /\
  getKernel (setClampNoFilter s) = getKernel s /\
  getImageIncrement (setClampNoFilter s) = getImageIncrement s.
Proof.
  destruct s; cbn. repeat split.
Qed.

(** C10: after any of the five constructors, in any storage, the radial2
    members are value-initialised: centerX1 and radius0 are the scalar zero
    and the root flag reads false. *)
Theorem ctors_value_init_radial2 (c : ctor_call) (this : State) :
  getRadial2CenterX1 (construct c this) = scalar_zero /\
  getRadial2Radius0 (construct c this) = scalar_zero /\
  isRadial2PosRoot (construct c this) = false.
Proof.
  destruct c; repeat split.
Qed.

(** ** Texture domain *)

(** C7: [hasTextureDomain] is false exactly when the right edge of the stored
    rectangle compares equal to the scalar zero, true otherwise, whatever the
    other edges are; [setTextureDomain] stores its argument as given. *)
Theorem hasTextureDomain_right_edge :
  (forall s : State,
     hasTextureDomain s = false <->
     scalar_eq (SkIntToScalar 0) (rect_right (getTextureDomain s)) = true) /\
  (forall s : State,
     hasTextureDomain s = true <->
     scalar_eq (SkIntToScalar 0) (rect_right (getTextureDomain s)) = false) /\
  (forall (r : GrRect S) (s : State),
     getTextureDomain (setTextureDomain r s) = r) /\
  (forall (l t r b : S) (s : State),
     scalar_eq (SkIntToScalar 0) r = false ->
     hasTextureDomain (setTextureDomain (mkGrRect l t r b) s) = true).
Proof.
  unfold hasTextureDomain, scalar_ne.
  split; [| split; [| split]].
  - intros s. apply negb_false_iff.
  - intros s. apply negb_true_iff.
  - reflexivity.
  - intros l t r b s Hr. cbn. now rewrite Hr.
Qed.

(** ** Gradient modes *)

(** C8: [isGradient] holds exactly for the radial, two-point radial and sweep
    sample modes, not for the normal one; and a sampler built with (repeat,
    clamp, bilinear) then switched to sweep is a gradient that still has the
    bilinear filter and the repeat wrap in x. *)
Theorem isGradient_modes :
  (forall s : State,
     isGradient s = true <->
     getSampleMode s = kRadial_SampleMode \/
     getSampleMode s = kRadial2_SampleMode \/
     getSampleMode s = kSweep_SampleMode) /\
  (forall s : State,
     getSampleMode s = kNormal_SampleMode -> isGradient s = false) /\
  (forall (mode : SampleMode) (s : State),
     getSampleMode (setSampleMode mode s) = mode /\
     getFilter (setSampleMode mode s) = getFilter s /\
     getWrapX (setSampleMode mode s) = getWrapX s) /\
  (forall this : State,
     let s0 := ctor_wrap_filter kRepeat_WrapMode kClamp_WrapMode
                 kBilinear_Filter this in
     let s := setSampleMode kSweep_SampleMode s0 in
     isGradient s0 = false /\
     isGradient s = true /\
     getFilter s = kBilinear_Filter /\
     getWrapX s = kRepeat_WrapMode).
Proof.
  split; [| split; [| split]].
  - intros s. unfold isGradient, getSampleMode.
    destruct (fSampleMode s); vm_compute; intuition congruence.
  - intros s Hs. unfold isGradient, getSampleMode in *. now rewrite Hs.
  - intros mode s. repeat split.
  - intros this. repeat split.
Qed.

(** ** Two-point radial parameters *)

Lemma SkToBool_b2z (b : bool) : SkToBool (Z.b2z b) = b.
Proof. now destruct b. Qed.

(** C9: [setRadial2Params] stores its three arguments, and
    [radial2IsDegenerate] then holds exactly when the stored centerX1 is the
    scalar one; storing (one, r, true) gives a degenerate gradient with the
    positive root.  The comparison [GR_Scalar1 == x] is taken to hold for the
    value one and no other, as it does for floats and fixed-point numbers. *)
Theorem setRadial2Params_stores
    (one_eq : forall x : S, scalar_eq GR_Scalar1 x = true <-> x = GR_Scalar1)
    (centerX1 radius0 : S) (posRoot : bool) (s : State) :
  let s' := setRadial2Params centerX1 radius0 posRoot s in
  getRadial2CenterX1 s' = centerX1 /\
  getRadial2Radius0 s' = radius0 /\
  isRadial2PosRoot s' = posRoot /\
  (radial2IsDegenerate s' = true <-> getRadial2CenterX1 s' = GR_Scalar1) /\
  (radial2IsDegenerate s' = scalar_eq GR_Scalar1 centerX1) /\
  (radial2IsDegenerate (setRadial2Params GR_Scalar1 radius0 true s) = true /\
   isRadial2PosRoot (setRadial2Params GR_Scalar1 radius0 true s) = true).
Proof.
  cbn. repeat split.
  - apply SkToBool_b2z.
  - apply one_eq.
  - apply one_eq.
  - unfold radial2IsDegenerate; cbn. now apply one_eq.
Qed.

(** ** Convolution parameters *)

Lemma width_check_true (k : Z) :
  0 <= k <= MAX_KERNEL_WIDTH ->
  (k >=? 0) && (k <=? MAX_KERNEL_WIDTH) = true.
Proof. unfold MAX_KERNEL_WIDTH. lia. Qed.

Lemma width_check_false (k : Z) :
  ~ 0 <= k <= MAX_KERNEL_WIDTH ->
  (k >=? 0) && (k <=? MAX_KERNEL_WIDTH) = false.
Proof. unfold MAX_KERNEL_WIDTH. lia. Qed.

Lemma to_uint8_in_range (k : Z) :
  0 <= k <= MAX_KERNEL_WIDTH -> to_uint8 k = k.
Proof.
  unfold MAX_KERNEL_WIDTH, to_uint8. intros Hk. apply Z.mod_small. lia.
Qed.

Lemma memcpy_fits (dst src : list float) (n : nat) :
  (n <= length src)%nat -> (n <= length dst)%nat ->
  memcpy dst src n = Ok (take n src ++ drop n dst).
Proof.
  intros Hs Hd. unfold memcpy.
  apply Nat.leb_le in Hs, Hd. now rewrite Hs, Hd.
Qed.

Lemma memcpy_length (dst src out : list float) (n : nat) :
  memcpy dst src n = Ok out -> length out = length dst.
Proof.
  unfold memcpy.
  destruct (n <=? length src)%nat eqn:Hs; [| discriminate].
  destruct (n <=? length dst)%nat eqn:Hd; [| discriminate].
  cbn. intros [= <-].
  apply Nat.leb_le in Hs, Hd.
  rewrite length_app, length_take, length_drop. lia.
Qed.

Lemma memcpy_not_assert (dst src : list float) (n : nat) :
  memcpy dst src n <> AssertFailed.
Proof. unfold memcpy. now destruct (_ && _). Qed.

Lemma memset0_fits (dst : list float) (n : nat) :
  (n <= length dst)%nat ->
  memset0 dst n = Ok (replicate n 0 ++ drop n dst).
Proof.
  intros Hd. unfold memset0. apply Nat.leb_le in Hd. now rewrite Hd.
Qed.

Lemma memset0_length (dst out : list float) (n : nat) :
  memset0 dst n = Ok out -> length out = length dst.
Proof.
  unfold memset0.
  destruct (n <=? length dst)%nat eqn:Hd; [| discriminate].
  intros [= <-]. apply Nat.leb_le in Hd.
  rewrite length_app, length_replicate, length_drop. unfold float in *. lia.
Qed.

Lemma memset0_not_assert (dst : list float) (n : nat) :
  memset0 dst n <> AssertFailed.
Proof. unfold memset0. now destruct (_ <=? _)%nat. Qed.

(** What a call with a width in range and large enough arrays returns. *)
Lemma setConvolutionParams_returns (k : Z)
    (kernel imageIncrement : option (list float)) (s : State) :
  storage_ok s ->
  0 <= k <= MAX_KERNEL_WIDTH ->
  (forall ws, kernel = Some ws -> (Z.to_nat k <= length ws)%nat) ->
  (forall v, imageIncrement = Some v -> (2 <= length v)%nat) ->
  setConvolutionParams k kernel imageIncrement s =
  Ok (set_fImageIncrement
        match imageIncrement with
        | Some v => take 2 v
        | None => [0; 0]
        end
        (set_fKernel
           match kernel with
           | Some ws => take (Z.to_nat k) ws ++ drop (Z.to_nat k) (fKernel s)
           | None => fKernel s
           end
           (set_fKernelWidth k s))).
Proof.
  intros [Hker Hinc] Hk Hws Hv.
  assert (Hk' : (Z.to_nat k <= length (fKernel s))%nat)
    by (rewrite Hker; unfold MAX_KERNEL_WIDTH in *; lia).
  unfold setConvolutionParams.
  rewrite (width_check_true k Hk), (to_uint8_in_range k Hk). cbn.
  destruct kernel as [ws |]; cbn.
  - rewrite (memcpy_fits _ ws _ (Hws ws eq_refl) Hk'). cbn.
    destruct imageIncrement as [v |]; cbn.
    + rewrite (memcpy_fits _ v 2 (Hv v eq_refl)) by (rewrite Hinc; lia). cbn.
      rewrite (drop_ge (fImageIncrement s)) by (rewrite Hinc; lia).
      now rewrite app_nil_r.
    + rewrite memset0_fits by (cbn; rewrite Hinc; lia). cbn.
      rewrite (drop_ge (fImageIncrement s)) by (rewrite Hinc; lia).
      reflexivity.
  - destruct imageIncrement as [v |]; cbn.
    + rewrite (memcpy_fits _ v 2 (Hv v eq_refl)) by (rewrite Hinc; lia). cbn.
      rewrite (drop_ge (fImageIncrement s)) by (rewrite Hinc; lia).
      now rewrite app_nil_r.
    + rewrite memset0_fits by (cbn; rewrite Hinc; lia). cbn.
      rewrite (drop_ge (fImageIncrement s)) by (rewrite Hinc; lia).
      reflexivity.
Qed.

(** The arrays keep their sizes across a call. *)
Lemma setConvolutionParams_storage_ok (k : Z)
    (kernel imageIncrement : option (list float)) (s s' : State) :
  storage_ok s ->
  setConvolutionParams k kernel imageIncrement s = Ok s' ->
  storage_ok s'.
Proof.
  intros [Hker Hinc]. unfold setConvolutionParams, GrAssert.
  destruct (_ && _); [| discriminate]. cbn.
  destruct kernel as [ws |]; cbn.
  - destruct (memcpy _ ws _) as [ker | |] eqn:Hc; try discriminate. cbn.
    apply memcpy_length in Hc; cbn in Hc.
    destruct imageIncrement as [v |]; cbn.
    + destruct (memcpy _ v 2) as [inc | |] eqn:Hi; try discriminate.
      apply memcpy_length in Hi; cbn in Hi.
      intros [= <-]. split; cbn; congruence.
    + destruct (memset0 _ 2) as [inc | |] eqn:Hi; try discriminate.
      apply memset0_length in Hi; cbn in Hi.
      intros [= <-]. split; cbn; congruence.
  - destruct imageIncrement as [v |]; cbn.
    + destruct (memcpy _ v 2) as [inc | |] eqn:Hi; try discriminate.
      apply memcpy_length in Hi; cbn in Hi.
      intros [= <-]. split; cbn; congruence.
    + destruct (memset0 _ 2) as [inc | |] eqn:Hi; try discriminate.
      apply memset0_length in Hi; cbn in Hi.
      intros [= <-]. split; cbn; congruence.
Qed.

(** C1: for a width k in [0,25], the call returns with [getKernelWidth] equal
    to k; with a kernel array of length k, [getKernel] agrees with it at every
    index below k; with a null kernel the stored weights are untouched; a
    non-null increment vector is copied, a null one zero-fills both stored
    components. *)
Theorem setConvolutionParams_stores (k : Z)
    (kernel imageIncrement : option (list float)) (s : State) :
  storage_ok s ->
  0 <= k <= 25 ->
  (forall ws, kernel = Some ws -> length ws = Z.to_nat k) ->
  (forall v, imageIncrement = Some v -> length v = 2%nat) ->
  exists s' : State,
    setConvolutionParams k kernel imageIncrement s = Ok s' /\
    getKernelWidth s' = k /\
    match kernel with
    | Some ws =>
        forall i : nat, (i < Z.to_nat k)%nat -> getKernel s' !! i = ws !! i
    | None => getKernel s' = getKernel s
    end /\
    match imageIncrement with
    | Some v => getImageIncrement s' = v
    | None => getImageIncrement s' = [0; 0]
    end.
Proof.
  intros Hs Hk Hws Hv.
  eexists. split.
  - apply setConvolutionParams_returns; try assumption.
    + intros ws E. rewrite (Hws ws E). lia.
    + intros v E. rewrite (Hv v E). lia.
  - cbn. split; [reflexivity |]. split.
    + destruct kernel as [ws |]; [| reflexivity].
      intros i Hi. specialize (Hws ws eq_refl).
      rewrite lookup_app_l by (rewrite length_take; lia).
      now apply lookup_take_lt.
    + destruct imageIncrement as [v |]; [| reflexivity].
      apply take_ge. rewrite (Hv v eq_refl). lia.
Qed.

(** C2: widths 0 and 25 are accepted; every width outside [0,25], 26 among
    them, stops at the assertion and returns no sampler, with a clamped or
    truncated width or otherwise; for a width inside [0,25] the assertion
    never fires. *)
Theorem setConvolutionParams_width_guard :
  (forall (kernel imageIncrement : option (list float)) (s : State),
     storage_ok s ->
     (forall v, imageIncrement = Some v -> (2 <= length v)%nat) ->
     exists s' : State,
       setConvolutionParams 0 kernel imageIncrement s = Ok s' /\
       getKernelWidth s' = 0) /\
  (forall (kernel imageIncrement : option (list float)) (s : State),
     storage_ok s ->
     (forall ws, kernel = Some ws -> (25 <= length ws)%nat) ->
     (forall v, imageIncrement = Some v -> (2 <= length v)%nat) ->
     exists s' : State,
       setConvolutionParams 25 kernel imageIncrement s = Ok s' /\
       getKernelWidth s' = 25) /\
  (forall (k : Z) (kernel imageIncrement : option (list float)) (s : State),
     ~ 0 <= k <= 25 ->
     setConvolutionParams k kernel imageIncrement s = AssertFailed) /\
  (forall (kernel imageIncrement : option (list float)) (s : State),
     setConvolutionParams 26 kernel imageIncrement s = AssertFailed) /\
  (forall (k : Z) (kernel imageIncrement : option (list float)) (s : State),
     0 <= k <= 25 ->
     setConvolutionParams k kernel imageIncrement s <> AssertFailed).
Proof.
  repeat apply conj.
  - intros kernel inc s Hs Hv. eexists. split.
    + apply setConvolutionParams_returns; try assumption.
      * unfold MAX_KERNEL_WIDTH; lia.
      * intros ws _. cbn. lia.
    + reflexivity.
  - intros kernel inc s Hs Hws Hv. eexists. split.
    + apply setConvolutionParams_returns; try assumption.
      unfold MAX_KERNEL_WIDTH; lia.
    + reflexivity.
  - intros k kernel inc s Hk. unfold setConvolutionParams.
    now rewrite (width_check_false k Hk).
  - intros kernel inc s. reflexivity.
  - intros k kernel inc s Hk. unfold setConvolutionParams.
    rewrite (width_check_true k Hk). cbn.
    destruct kernel as [ws |]; cbn.
    + destruct (memcpy _ ws _) as [ker | |] eqn:Hc; cbn;
        [| now apply memcpy_not_assert in Hc | discriminate].
      destruct inc as [v |]; cbn.
      * destruct (memcpy _ v 2) as [i | |] eqn:Hi; cbn;
          [discriminate | now apply memcpy_not_assert in Hi | discriminate].
      * destruct (memset0 _ 2) as [i | |] eqn:Hi; cbn;
          [discriminate | now apply memset0_not_assert in Hi | discriminate].
    + destruct inc as [v |]; cbn.
      * destruct (memcpy _ v 2) as [i | |] eqn:Hi; cbn;
          [discriminate | now apply memcpy_not_assert in Hi | discriminate].
      * destruct (memset0 _ 2) as [i | |] eqn:Hi; cbn;
          [discriminate | now apply memset0_not_assert in Hi | discriminate].
Qed.

End Properties.

(** ** Matrix concatenation *)

Section MatrixAlgebra.
Context {S : Type} `{ScalarOps S}.

(** Scalars are taken with exact arithmetic here: the laws of a commutative
    semiring.  Rounding, as floats and fixed-point numbers have, is not
    covered. *)
Hypothesis scalar_semiring :
  semi_ring_theory scalar_zero GR_Scalar1 scalar_add scalar_mul eq.

Add Ring scalar_ring : scalar_semiring.


Lemma mat_mul_assoc (a b c : GrMatrix S) :
  mat_mul (mat_mul a b) c = mat_mul a (mat_mul b c).
Proof.
  unfold mat_mul, dot3; cbn.
  f_equal; ring.
Qed.

Lemma mat_apply_identity (t : GrVec S) : mat_apply mat_identity t = t.
Proof.
  destruct t as [x y w]. unfold mat_apply, mat_identity, dot3; cbn.
  f_equal; ring.
Qed.

End MatrixAlgebra.

Section MatrixComposition.
Context {S : Type} `{ScalarOps S}.

Local Notation "a [*] b" := (scalar_mul a b)
  (at level 40, left associativity).
Local Notation "a [+] b" := (scalar_add a b)
  (at level 50, left associativity).


End MatrixComposition.

(** * The model on concrete scalars *)

Section FixedPoint.
#[local] Existing Instance FixedScalar.

(** C3: built in storage whose swap flag was on, [GrSamplerState(Filter)]
    reports [swapsRAndB()] true: it never writes the flag.  The default
    constructor, in the same storage, reports false. *)
Theorem ctor_filter_keeps_stale_swap :
  swapsRAndB (ctor_filter kBilinear_Filter stale_storage) = true /\
  swapsRAndB (ctor_default stale_storage) = false /\
  swapsRAndB (ctor_filter kBilinear_Filter (setRAndBSwap false stale_storage))
    = false.
Proof. repeat split. Qed.

(** The convolution setter on the stale storage, width 3. *)
Lemma setConvolutionParams_stores_witness :
  storage_ok stale_storage /\
  0 <= 3 <= 25 /\
  exists s' : GrSamplerState Z,
    setConvolutionParams 3 (Some kernel3) (Some increment_x) stale_storage
      = Ok s' /\
    getKernelWidth s' = 3 /\
    (forall i : nat, (i < Z.to_nat 3)%nat -> getKernel s' !! i = kernel3 !! i) /\
    getImageIncrement s' = increment_x.
Proof.
  split; [split; reflexivity |].
  split; [lia |].
  apply (setConvolutionParams_stores 3 (Some kernel3) (Some increment_x)
           stale_storage).
  - split; reflexivity.
  - lia.
  - intros ws [= <-]. reflexivity.
  - intros v [= <-]. reflexivity.
Defined.

(** The scenario (one, one half, true) on a default-constructed sampler, in
    16.16 fixed point. *)
Lemma setRadial2Params_stores_witness :
  (forall x : Z, scalar_eq GR_Scalar1 x = true <-> x = GR_Scalar1) /\
  radial2IsDegenerate
    (setRadial2Params GR_Scalar1 fixed_half true (ctor_default stale_storage))
    = true /\
  isRadial2PosRoot
    (setRadial2Params GR_Scalar1 fixed_half true (ctor_default stale_storage))
    = true.
Proof.
  assert (one_eq : forall x : Z,
             scalar_eq GR_Scalar1 x = true <-> x = GR_Scalar1).
  { intros x. change ((65536 =? x) = true <-> x = 65536).
    rewrite Z.eqb_eq. split; intros E; symmetry; exact E. }
  split; [exact one_eq |].
  apply (setRadial2Params_stores one_eq GR_Scalar1 fixed_half true
           (ctor_default stale_storage)).
Defined.

(** A call on the stale storage, run: the first three weights are replaced,
    the other twenty-two stay. *)
Example setConvolutionParams_run :
  setConvolutionParams 3 (Some kernel3) None stale_storage
  = Ok (set_fImageIncrement [0; 0]
          (set_fKernel (kernel3 ++ (Z.of_nat <$> seq 103 22))
             (set_fKernelWidth 3 stale_storage))).
Proof. reflexivity. Qed.

(** A null kernel with a new width: the width changes, the weights do not. *)
Example setConvolutionParams_null_kernel :
  setConvolutionParams 7 None (Some increment_x) stale_storage
  = Ok (set_fImageIncrement increment_x (set_fKernelWidth 7 stale_storage)).
Proof. reflexivity. Qed.

Example setConvolutionParams_26 :
  setConvolutionParams 26 (Some kernel3) None stale_storage = AssertFailed.
Proof. reflexivity. Qed.

Example setConvolutionParams_negative :
  setConvolutionParams (-1) None None stale_storage = AssertFailed.
Proof. reflexivity. Qed.

(** A kernel array shorter than the width is read past its end. *)
Example setConvolutionParams_short_kernel :
  setConvolutionParams 5 (Some kernel3) None stale_storage = OutOfBounds.
Proof. reflexivity. Qed.

(** Every constructor leaves radial2 parameters that compare equal to zero. *)
Example ctors_radial2_zero :
  Forall (fun c =>
            scalar_eq (SkIntToScalar 0)
              (getRadial2CenterX1 (construct c stale_storage)) = true /\
            scalar_eq (SkIntToScalar 0)
              (getRadial2Radius0 (construct c stale_storage)) = true /\
            isRadial2PosRoot (construct c stale_storage) = false)
    [New; NewFilter kConvolution_Filter;
     NewWrapFilter kRepeat_WrapMode kMirror_WrapMode kBilinear_Filter;
     NewWrapMatrixFilter kClamp_WrapMode kClamp_WrapMode (fMatrix stale_storage)
       kNearest_Filter;
     NewFull kMirror_WrapMode kClamp_WrapMode kRadial2_SampleMode
       (fMatrix stale_storage) k4x4Downsample_Filter].
Proof. repeat constructor. Qed.


(** A rectangle with a negative right edge left of its left edge counts as a
    domain; the empty rectangle of a fresh sampler does not. *)
Example hasTextureDomain_inverted :
  hasTextureDomain (setTextureDomain inverted_rect (ctor_default stale_storage))
    = true /\
  hasTextureDomain (ctor_default stale_storage) = false.
Proof. split; reflexivity. Qed.

End FixedPoint.

Section Exact.
#[local] Existing Instance ExactScalar.



(** The order of the product matters: A*B is not B*A. *)
Example preConcatMatrix_order :
  getMatrix (preConcatMatrix matB (setMatrix matA stale_storage))
    <> getMatrix (preConcatMatrix matA (setMatrix matB stale_storage)).
Proof. discriminate. Qed.

Example preConcatMatrix_run :
  getMatrix (preConcatMatrix matB (setMatrix matA stale_storage))
    = mkGrMatrix 0 (-2) 13 3 0 20 0 0 1 /\
  mat_apply (mkGrMatrix 0 (-2) 13 3 0 20 0 0 1) point_t = mkGrVec 17 29 1 /\
  mat_apply matB point_t = mkGrVec 6 10 1 /\
  mat_apply matA (mkGrVec 6 10 1) = mkGrVec 17 29 1.
Proof. repeat split. Qed.

End Exact.

(** * Further properties of the header *)

Section Convolution.
Context {S : Type} `{ScalarOps S}.

Local Abbreviation State := (GrSamplerState S).

(** Run the binds whose left side is a value. *)
Ltac run_bind :=
  unfold mbind, mret, outcome_bind, outcome_ret; cbv beta iota zeta.

Lemma bind_Ok_inv {A B : Type} (m : outcome A) (f : A -> outcome B) (b : B) :
  m ≫= f = Ok b -> exists a : A, m = Ok a /\ f a = Ok b.
Proof.
  destruct m as [a | |]; try discriminate.
  intros E. exists a. split; [reflexivity | exact E].
Qed.

Lemma memcpy_Ok_inv (dst src out : list float) (n : nat) :
  memcpy dst src n = Ok out ->
  (n <= length src)%nat /\ (n <= length dst)%nat /\
  out = take n src ++ drop n dst.
Proof.
  unfold memcpy.
  destruct (n <=? length src)%nat eqn:Hs; [| discriminate].
  destruct (n <=? length dst)%nat eqn:Hd; [| discriminate].
  apply Nat.leb_le in Hs, Hd. cbn. intros [= <-]. auto.
Qed.

Lemma memset0_Ok_inv (dst out : list float) (n : nat) :
  memset0 dst n = Ok out ->
  (n <= length dst)%nat /\ out = replicate n (0 : float) ++ drop n dst.
Proof.
  unfold memset0.
  destruct (n <=? length dst)%nat eqn:Hd; [| discriminate].
  apply Nat.leb_le in Hd. intros [= <-]. auto.
Qed.

(** What a returning call has checked and what it has written, with no
    assumption on the array sizes. *)
Lemma setConvolutionParams_Ok_inv (k : Z)
    (kernel imageIncrement : option (list float)) (s s' : State) :
  setConvolutionParams k kernel imageIncrement s = Ok s' ->
  0 <= k <= MAX_KERNEL_WIDTH /\
  match kernel with
  | Some ws => (Z.to_nat k <= length ws)%nat /\
               (Z.to_nat k <= length (fKernel s))%nat
  | None => True
  end /\
  match imageIncrement with
  | Some v => (2 <= length v)%nat
  | None => True
  end /\
  (2 <= length (fImageIncrement s))%nat /\
  s' = set_fImageIncrement
         (match imageIncrement with
          | Some v => take 2 v
          | None => replicate 2 (0 : float)
          end ++ drop 2 (fImageIncrement s))
         (set_fKernel
            match kernel with
            | Some ws => take (Z.to_nat k) ws ++ drop (Z.to_nat k) (fKernel s)
            | None => fKernel s
            end
            (set_fKernelWidth k s)).
Proof.
  unfold setConvolutionParams. intros Hcall.
  apply bind_Ok_inv in Hcall as (u & Hu & Hcall).
  unfold GrAssert in Hu.
  destruct ((k >=? 0) && (k <=? MAX_KERNEL_WIDTH)) eqn:Hc; [| discriminate].
  assert (Hk : 0 <= k <= MAX_KERNEL_WIDTH) by lia.
  rewrite (to_uint8_in_range k Hk) in Hcall. cbv zeta in Hcall.
  apply bind_Ok_inv in Hcall as (s1 & Hs1 & Hcall).
  split; [exact Hk |].
  assert (Hker :
    match kernel with
    | Some ws => (Z.to_nat k <= length ws)%nat /\
                 (Z.to_nat k <= length (fKernel s))%nat
    | None => True
    end /\
    s1 = set_fKernel
           match kernel with
           | Some ws => take (Z.to_nat k) ws ++ drop (Z.to_nat k) (fKernel s)
           | None => fKernel s
           end
           (set_fKernelWidth k s)).
  { destruct kernel as [ws |].
    - apply bind_Ok_inv in Hs1 as (ker & Hker & Hs1).
      apply memcpy_Ok_inv in Hker as (Hws & Hd & ->).
      injection Hs1 as <-. auto.
    - injection Hs1 as <-. split; [exact I |]. now destruct s. }
  destruct Hker as [Hfit ->]. split; [exact Hfit |].
  destruct imageIncrement as [v |].
  - apply bind_Ok_inv in Hcall as (inc & Hinc & Hcall).
    apply memcpy_Ok_inv in Hinc as (Hv & Hd & ->).
    injection Hcall as <-. auto.
  - apply bind_Ok_inv in Hcall as (inc & Hinc & Hcall).
    apply memset0_Ok_inv in Hinc as (Hd & ->).
    injection Hcall as <-. auto.
Qed.

(** The converse: with the width in range and arrays long enough, the call
    returns the state with the three convolution members written. *)
Lemma setConvolutionParams_compute (k : Z)
    (kernel imageIncrement : option (list float)) (s : State) :
  0 <= k <= MAX_KERNEL_WIDTH ->
  match kernel with
  | Some ws => (Z.to_nat k <= length ws)%nat /\
               (Z.to_nat k <= length (fKernel s))%nat
  | None => True
  end ->
  match imageIncrement with
  | Some v => (2 <= length v)%nat
  | None => True
  end ->
  (2 <= length (fImageIncrement s))%nat ->
  setConvolutionParams k kernel imageIncrement s =
  Ok (set_fImageIncrement
        (match imageIncrement with
         | Some v => take 2 v
         | None => replicate 2 (0 : float)
         end ++ drop 2 (fImageIncrement s))
        (set_fKernel
           match kernel with
           | Some ws => take (Z.to_nat k) ws ++ drop (Z.to_nat k) (fKernel s)
           | None => fKernel s
           end
           (set_fKernelWidth k s))).
Proof.
  intros Hk Hker Hinc Hdst. unfold setConvolutionParams.
  rewrite (width_check_true k Hk), (to_uint8_in_range k Hk).
  change (GrAssert true) with (Ok tt). run_bind.
  destruct kernel as [ws |].
  - destruct Hker as [Hws Hd].
    change (fKernel (set_fKernelWidth k s)) with (fKernel s).
    rewrite (memcpy_fits _ ws _ Hws Hd). run_bind.
    destruct imageIncrement as [v |].
    + change (memcpy _ v 2) with (memcpy (fImageIncrement s) v 2).
      rewrite (memcpy_fits _ v 2 Hinc Hdst). now run_bind.
    + change (memset0 _ 2) with (memset0 (fImageIncrement s) 2).
      rewrite (memset0_fits _ 2 Hdst). now run_bind.
  - run_bind. destruct imageIncrement as [v |].
    + change (memcpy _ v 2) with (memcpy (fImageIncrement s) v 2).
      rewrite (memcpy_fits _ v 2 Hinc Hdst). run_bind. now destruct s.
    + change (memset0 _ 2) with (memset0 (fImageIncrement s) 2).
      rewrite (memset0_fits _ 2 Hdst). run_bind. now destruct s.
Qed.

Lemma bind_AssertFailed_inv {A B : Type} (m : outcome A) (f : A -> outcome B) :
  m ≫= f = AssertFailed ->
  m = AssertFailed \/ exists a : A, m = Ok a /\ f a = AssertFailed.
Proof.
  destruct m as [a | |]; try discriminate.
  - intros E. right. exists a. auto.
  - intros _. now left.
Qed.

(** Inside the range the assertion does not fire. *)
Lemma setConvolutionParams_no_assert (k : Z)
    (kernel imageIncrement : option (list float)) (s : State) :
  0 <= k <= MAX_KERNEL_WIDTH ->
  setConvolutionParams k kernel imageIncrement s <> AssertFailed.
Proof.
  intros Hk. unfold setConvolutionParams.
  rewrite (width_check_true k Hk). change (GrAssert true) with (Ok tt).
  intros E. cbv zeta in E.
  apply bind_AssertFailed_inv in E as [E | (_ & _ & E)]; [discriminate |].
  apply bind_AssertFailed_inv in E as [E | (s1 & _ & E)].
  - destruct kernel as [ws |]; [| discriminate].
    apply bind_AssertFailed_inv in E as [E | (? & _ & E)]; [| discriminate].
    now apply memcpy_not_assert in E.
  - destruct imageIncrement as [v |].
    + apply bind_AssertFailed_inv in E as [E | (? & _ & E)]; [| discriminate].
      now apply memcpy_not_assert in E.
    + apply bind_AssertFailed_inv in E as [E | (? & _ & E)]; [| discriminate].
      now apply memset0_not_assert in E.
Qed.

(** X1: a returning call with a kernel array replaces exactly the first
    [kernelWidth] weights; the weights from index [kernelWidth] on are the
    ones stored before, and the array keeps its size. *)
Theorem setConvolutionParams_kernel_tail (k : Z) (ws : list float)
    (imageIncrement : option (list float)) (s s' : State) :
  setConvolutionParams k (Some ws) imageIncrement s = Ok s' ->
  (forall i : nat, (i < Z.to_nat k)%nat -> getKernel s' !! i = ws !! i) /\
  (forall i : nat,
     (Z.to_nat k <= i)%nat -> getKernel s' !! i = getKernel s !! i) /\
  length (getKernel s') = length (getKernel s).
Proof.
  intros Hcall.
  apply setConvolutionParams_Ok_inv in Hcall as (Hk & [Hws Hd] & _ & _ & ->).
  cbn. repeat split.
  - intros i Hi.
    rewrite lookup_app_l by (rewrite length_take; lia).
    now apply lookup_take_lt.
  - intros i Hi.
    rewrite lookup_app_r by (rewrite length_take; lia).
    rewrite lookup_drop, length_take. f_equal. lia.
  - unfold getKernel. rewrite length_app, length_take, length_drop. lia.
Qed.

(** X2: a returning call had a width in [0,25], now stored, and wrote nothing
    but the three convolution members: wrap modes, sample mode, filter (not
    switched to convolution), matrix, swap flag, texture domain and the
    radial2 members are as before, and the arrays keep their sizes. *)
Theorem setConvolutionParams_frame (k : Z)
    (kernel imageIncrement : option (list float)) (s s' : State) :
  setConvolutionParams k kernel imageIncrement s = Ok s' ->
  (0 <= k <= 25 /\ getKernelWidth s' = k) /\
  getWrapX s' = getWrapX s /\
  getWrapY s' = getWrapY s /\
  getSampleMode s' = getSampleMode s /\
  getFilter s' = getFilter s /\
  getMatrix s' = getMatrix s /\
  swapsRAndB s' = swapsRAndB s /\
  getTextureDomain s' = getTextureDomain s /\
  getRadial2CenterX1 s' = getRadial2CenterX1 s /\
  getRadial2Radius0 s' = getRadial2Radius0 s /\
  fRadial2PosRoot s' = fRadial2PosRoot s /\
  length (getKernel s') = length (getKernel s) /\
  length (getImageIncrement s') = length (getImageIncrement s).
Proof.
  intros Hcall.
  apply setConvolutionParams_Ok_inv in Hcall as (Hk & Hker & Hinc & Hd & ->).
  cbn. repeat split; try (unfold MAX_KERNEL_WIDTH in Hk; lia).
  - unfold getKernel. destruct kernel as [ws |]; [| reflexivity].
    rewrite length_app, length_take, length_drop. lia.
  - unfold getImageIncrement. rewrite length_app, length_drop.
    destruct imageIncrement as [v |].
    + rewrite length_take. lia.
    + cbn. lia.
Qed.

(** X3: on a sampler with its arrays of 25 and 2 floats, the call returns
    exactly when the width is in [0,25], a non-null kernel array has at least
    [kernelWidth] elements and a non-null increment array at least two; it
    reads past an argument array exactly when the width is in range and one
    of them is too short; it stops at the assertion exactly when the width is
    out of range. *)
Theorem setConvolutionParams_outcome (k : Z)
    (kernel imageIncrement : option (list float)) (s : State) :
  storage_ok s ->
  let fits :=
    match kernel with
    | Some ws => (Z.to_nat k <= length ws)%nat
    | None => True
    end /\
    match imageIncrement with
    | Some v => (2 <= length v)%nat
    | None => True
    end in
  ((exists s' : State, setConvolutionParams k kernel imageIncrement s = Ok s')
   <-> 0 <= k <= 25 /\ fits) /\
  (setConvolutionParams k kernel imageIncrement s = OutOfBounds
   <-> 0 <= k <= 25 /\ ~ fits) /\
  (setConvolutionParams k kernel imageIncrement s = AssertFailed
   <-> ~ 0 <= k <= 25).
Proof.
  intros [Hker Hinc] fits.
  assert (Hret : 0 <= k <= 25 -> fits ->
                 exists s', setConvolutionParams k kernel imageIncrement s
                            = Ok s').
  { intros Hk [Hf1 Hf2]. eexists.
    apply setConvolutionParams_compute; try assumption.
    - destruct kernel; [| exact I]. split; [exact Hf1 |].
      rewrite Hker. unfold MAX_KERNEL_WIDTH. lia.
    - rewrite Hinc. lia. }
  assert (Hinv : forall s', setConvolutionParams k kernel imageIncrement s
                            = Ok s' -> 0 <= k <= 25 /\ fits).
  { intros s' E.
    apply setConvolutionParams_Ok_inv in E as (Hk & Hf1 & Hf2 & _ & _).
    split; [exact Hk |]. split; [| exact Hf2].
    destruct kernel; [apply Hf1 | exact I]. }
  assert (Hno : 0 <= k <= 25 ->
                setConvolutionParams k kernel imageIncrement s
                <> AssertFailed)
    by apply setConvolutionParams_no_assert.
  assert (Hout : ~ 0 <= k <= 25 ->
                 setConvolutionParams k kernel imageIncrement s
                 = AssertFailed).
  { intros Hk. unfold setConvolutionParams.
    now rewrite (width_check_false k Hk). }
  destruct (decide (0 <= k <= 25)) as [Hk | Hk].
  - specialize (Hno Hk).
    destruct (setConvolutionParams k kernel imageIncrement s)
      as [s' | |] eqn:E.
    + destruct (Hinv s' eq_refl) as [_ Hf].
      split; [| split]; split.
      * intros _. auto.
      * intros _. now exists s'.
      * discriminate.
      * intros [_ Hn]. contradiction.
      * discriminate.
      * intros Hn. contradiction.
    + contradiction.
    + split; [| split]; split.
      * intros [s' Hs']. discriminate.
      * intros [_ Hf]. destruct (Hret Hk Hf) as [s' Hs']. discriminate.
      * intros _. split; [exact Hk |].
        intros Hf. destruct (Hret Hk Hf) as [s' Hs']. discriminate.
      * reflexivity.
      * discriminate.
      * intros Hn. contradiction.
  - rewrite (Hout Hk).
    split; [| split]; split.
    + intros [s' Hs']. discriminate.
    + intros [Hk' _]. contradiction.
    + discriminate.
    + intros [Hk' _]. contradiction.
    + intros _. exact Hk.
    + reflexivity.
Qed.

(** X4: with width 0 a kernel array is not read at all: the call does what
    the same call with a null kernel does, whatever the array holds. *)
Theorem setConvolutionParams_width_0 (ws : list float)
    (imageIncrement : option (list float)) (s : State) :
  setConvolutionParams 0 (Some ws) imageIncrement s
  = setConvolutionParams 0 None imageIncrement s.
Proof.
  unfold setConvolutionParams.
  change (GrAssert _) with (@Ok unit tt). run_bind.
  change (memcpy _ ws (Z.to_nat 0)) with (@Ok (list float) (fKernel s)).
  run_bind. now destruct s.
Qed.

(** X5: a call with a kernel of width k1 followed by a call with a null
    kernel and width k2: the width reads k2, the first k1 weights are those of
    the first call, and every weight from k1 on, those between k1 and k2
    included, is what the sampler held before both calls. *)
Theorem setConvolutionParams_then_null_kernel (k1 k2 : Z) (ws : list float)
    (inc1 inc2 : option (list float)) (s s1 s2 : State) :
  setConvolutionParams k1 (Some ws) inc1 s = Ok s1 ->
  setConvolutionParams k2 None inc2 s1 = Ok s2 ->
  getKernelWidth s2 = k2 /\
  (forall i : nat, (i < Z.to_nat k1)%nat -> getKernel s2 !! i = ws !! i) /\
  (forall i : nat,
     (Z.to_nat k1 <= i)%nat -> getKernel s2 !! i = getKernel s !! i).
Proof.
  intros H1 H2.
  apply setConvolutionParams_Ok_inv in H2 as (_ & _ & _ & _ & ->).
  apply setConvolutionParams_Ok_inv in H1 as (Hk & [Hws Hd] & _ & _ & ->).
  cbn. repeat split.
  - intros i Hi.
    rewrite lookup_app_l by (rewrite length_take; lia).
    now apply lookup_take_lt.
  - intros i Hi.
    rewrite lookup_app_r by (rewrite length_take; lia).
    rewrite lookup_drop, length_take. f_equal. lia.
Qed.

(** X6: for argument arrays whose contents are the same at both calls, as
    those of arrays outside the sampler are, the call is idempotent: repeated
    with the same width and the same contents on the sampler it returned, it
    returns that sampler again. *)
Theorem setConvolutionParams_idempotent (k : Z)
    (kernel imageIncrement : option (list float)) (s s' : State) :
  setConvolutionParams k kernel imageIncrement s = Ok s' ->
  setConvolutionParams k kernel imageIncrement s' = Ok s'.
Proof.
  intros Hcall.
  apply setConvolutionParams_Ok_inv in Hcall as (Hk & Hker & Hinc & Hd & ->).
  assert (Hlen2 :
    length (match imageIncrement with
            | Some v => take 2 v
            | None => replicate 2 (0 : float)
            end) = 2%nat).
  { destruct imageIncrement as [v |]; [| reflexivity].
    rewrite length_take. lia. }
  rewrite setConvolutionParams_compute; try assumption.
  - destruct s. unfold set_fImageIncrement, set_fKernel, set_fKernelWidth.
    cbn in *. f_equal. f_equal.
    + rewrite (drop_app_length' _ _ 2) by (symmetry; exact Hlen2).
      reflexivity.
    + destruct kernel as [ws |]; [| reflexivity].
      rewrite drop_app_length' by (rewrite length_take; lia).
      reflexivity.
  - destruct kernel as [ws |]; [| exact I].
    destruct Hker as [Hws Hdst]. split; [exact Hws |].
    cbn. rewrite length_app, length_take, length_drop. lia.
  - cbn in *. rewrite length_app, length_drop, Hlen2. lia.
Qed.

(** An argument array inside the sampler is another matter.  The kernel
    pointer may be [getImageIncrement()] of the sampler itself; line 241 then
    reads the increment as it is when the call starts, before line 246
    zero-fills it.  The first such call with width 2 copies the old increment
    into weights 0 and 1; the second finds the increment zeroed and writes
    zeros. *)
Lemma setConvolutionParams_own_increment_as_kernel (s s1 s2 : State) :
  setConvolutionParams 2 (Some (getImageIncrement s)) None s = Ok s1 ->
  setConvolutionParams 2 (Some (getImageIncrement s1)) None s1 = Ok s2 ->
  take 2 (getKernel s1) = take 2 (getImageIncrement s) /\
  take 2 (getKernel s2) = [0; 0].
Proof.
  intros H1 H2.
  apply setConvolutionParams_Ok_inv in H2 as (_ & _ & _ & _ & ->).
  apply setConvolutionParams_Ok_inv in H1 as (_ & [Hws _] & _ & _ & ->).
  unfold getKernel, getImageIncrement in *. cbn in *. split.
  - apply take_app_length'. rewrite length_take. lia.
  - reflexivity.
Qed.

End Convolution.

Section Construction.
Context {S : Type} `{ScalarOps S}.

Local Abbreviation State := (GrSamplerState S).

(** X7: no constructor writes the convolution members: after any of the five,
    [getKernelWidth], [getKernel] and [getImageIncrement] return what the
    storage held before the object was built. *)
Theorem ctors_leave_convolution_members (c : ctor_call) (this : State) :
  getKernelWidth (construct c this) = fKernelWidth this /\
  getKernel (construct c this) = fKernel this /\
  getImageIncrement (construct c this) = fImageIncrement this.
Proof.
  destruct c; repeat split.
Qed.

(** The five-argument constructor stores its five arguments and clears
    the swap flag and the texture domain, whatever the storage held. *)
Lemma ctor_full_stores (wx wy : WrapMode) (sample : SampleMode)
    (matrix : GrMatrix S) (filter : Filter) (this : State) :
  let s := ctor_full wx wy sample matrix filter this in
  getWrapX s = wx /\
  getWrapY s = wy /\
  getSampleMode s = sample /\
  getMatrix s = matrix /\
  getFilter s = filter /\
  swapsRAndB s = false /\
  getTextureDomain s
    = mkGrRect scalar_zero scalar_zero scalar_zero scalar_zero.
Proof.
  repeat split.
Qed.

(** X8: the constructor overloads agree.  In the same storage, the default
    constructor is the three-argument one at (clamp, clamp, nearest); the
    three-argument one is the four-argument one at the identity matrix; the
    four-argument one is the five-argument one at the normal sample mode; and
    the filter-only one followed by [setRAndBSwap(false)] is the
    three-argument one at (clamp, clamp). *)
Theorem ctor_overloads_agree (wx wy : WrapMode) (matrix : GrMatrix S)
    (filter : Filter) (this : State) :
  ctor_default this
    = ctor_wrap_filter kClamp_WrapMode kClamp_WrapMode kNearest_Filter this /\
  ctor_wrap_filter wx wy filter this
    = ctor_wrap_matrix_filter wx wy mat_identity filter this /\
  ctor_wrap_matrix_filter wx wy matrix filter this
    = ctor_full wx wy kNormal_SampleMode matrix filter this /\
  setRAndBSwap false (ctor_filter filter this)
    = ctor_wrap_filter kClamp_WrapMode kClamp_WrapMode filter this.
Proof.
  repeat split.
Qed.

(** X9: [setClampNoFilter] undoes every earlier choice of wrap modes, sample
    mode, filter, matrix, texture domain and swap flag: applied to a freshly
    constructed sampler it gives the default-constructed one, applied twice it
    does what it does once, and applied after the seven plain setters it does
    what it does without them. *)
Theorem setClampNoFilter_absorbs :
  (forall (c : ctor_call) (this : State),
     setClampNoFilter (construct c this) = ctor_default this) /\
  (forall s : State, setClampNoFilter (setClampNoFilter s) = setClampNoFilter s) /\
  (forall (a b : WrapMode) (m : SampleMode) (f : Filter) (M : GrMatrix S)
          (r : GrRect S) (w : bool) (s : State),
     setClampNoFilter
       (setWrapX a (setWrapY b (setSampleMode m (setFilter f
          (setMatrix M (setTextureDomain r (setRAndBSwap w s)))))))
     = setClampNoFilter s).
Proof.
  split; [| split].
  - intros c this. destruct c; reflexivity.
  - reflexivity.
  - reflexivity.
Qed.

(** X10: which constructors make a gradient: only the five-argument one, and
    only with a sample mode other than normal. *)
Theorem isGradient_construct (c : ctor_call) (this : State) :
  isGradient (construct c this) = true <->
  exists (wx wy : WrapMode) (sample : SampleMode) (matrix : GrMatrix S)
         (filter : Filter),
    c = NewFull wx wy sample matrix filter /\ sample <> kNormal_SampleMode.
Proof.
  split.
  - destruct c as [| f | wx wy f | wx wy m f | wx wy sm m f];
      try (cbn; discriminate).
    intros Hg. exists wx, wy, sm, m, f. split; [reflexivity |].
    intros ->. discriminate Hg.
  - intros (wx & wy & sm & m & f & -> & Hsm).
    destruct sm; [contradiction | reflexivity ..].
Qed.

(** X11: a freshly constructed or reset sampler has no texture domain, and a
    freshly constructed one is not a degenerate two-point radial gradient;
    setting a domain and resetting clears it again.  Zero is taken to compare
    equal to itself and one not to compare equal to zero. *)
Theorem fresh_sampler_predicates
    (zero_eq : scalar_eq (SkIntToScalar 0) scalar_zero = true)
    (one_ne_zero : scalar_eq GR_Scalar1 scalar_zero = false)
    (c : ctor_call) (r : GrRect S) (this s : State) :
  hasTextureDomain (construct c this) = false /\
  radial2IsDegenerate (construct c this) = false /\
  hasTextureDomain (setClampNoFilter s) = false /\
  hasTextureDomain (setClampNoFilter (setTextureDomain r s)) = false.
Proof.
  unfold hasTextureDomain, scalar_ne, radial2IsDegenerate.
  repeat split.
  - destruct c; cbn; now rewrite zero_eq.
  - destruct c; cbn; exact one_ne_zero.
  - cbn. now rewrite zero_eq.
  - cbn. now rewrite zero_eq.
Qed.

(** The seven plain setters behave as fields: a getter after its setter
    returns the value set, setting the value a getter returns changes nothing,
    and of two calls of a setter the last one wins. *)
Lemma plain_setters_are_fields (s : State) :
  (forall a, getWrapX (setWrapX a s) = a) /\
  (forall a, getWrapY (setWrapY a s) = a) /\
  (forall a, getSampleMode (setSampleMode a s) = a) /\
  (forall a, getFilter (setFilter a s) = a) /\
  (forall a, getMatrix (setMatrix a s) = a) /\
  (forall a, getTextureDomain (setTextureDomain a s) = a) /\
  (forall a, swapsRAndB (setRAndBSwap a s) = a) /\
  (setWrapX (getWrapX s) s = s /\
   setWrapY (getWrapY s) s = s /\
   setSampleMode (getSampleMode s) s = s /\
   setFilter (getFilter s) s = s /\
   setMatrix (getMatrix s) s = s /\
   setTextureDomain (getTextureDomain s) s = s /\
   setRAndBSwap (swapsRAndB s) s = s) /\
  (forall a b, setWrapX a (setWrapX b s) = setWrapX a s) /\
  (forall a b, setWrapY a (setWrapY b s) = setWrapY a s) /\
  (forall a b, setSampleMode a (setSampleMode b s) = setSampleMode a s) /\
  (forall a b, setFilter a (setFilter b s) = setFilter a s) /\
  (forall a b, setMatrix a (setMatrix b s) = setMatrix a s) /\
  (forall a b,
     setTextureDomain a (setTextureDomain b s) = setTextureDomain a s) /\
  (forall a b, setRAndBSwap a (setRAndBSwap b s) = setRAndBSwap a s).
Proof.
  destruct s. repeat split.
Qed.

(** No mutator other than [setRadial2Params] writes the radial2 members. *)
Lemma run_call_keeps_radial2 (c : mutator_call) (s s' : State) :
  run_call c s = Ok s' ->
  fRadial2CenterX1 s' = fRadial2CenterX1 s /\
  fRadial2Radius0 s' = fRadial2Radius0 s /\
  fRadial2PosRoot s' = fRadial2PosRoot s.
Proof.
  destruct c; cbn [run_call];
    try (intros [= <-]; repeat split).
  intros Hcall.
  apply setConvolutionParams_Ok_inv in Hcall as (_ & _ & _ & _ & ->).
  repeat split.
Qed.

Lemma run_calls_keep_radial2 (cs : list mutator_call) (s s' : State) :
  run_calls cs s = Ok s' ->
  fRadial2CenterX1 s' = fRadial2CenterX1 s /\
  fRadial2Radius0 s' = fRadial2Radius0 s /\
  fRadial2PosRoot s' = fRadial2PosRoot s.
Proof.
  revert s. induction cs as [| c cs IH]; intros s.
  - intros [= <-]. repeat split.
  - cbn [run_calls].
    destruct (run_call c s) as [s1 | |] eqn:Hc; try discriminate.
    intros Hrest.
    destruct (run_call_keeps_radial2 c s s1 Hc) as (E1 & E2 & E3).
    destruct (IH s1 Hrest) as (F1 & F2 & F3).
    repeat split; congruence.
Qed.

(** A sequence with no [setConvolutionParams] in it always returns. *)
Lemma run_calls_plain_return (cs : list mutator_call) (s : State) :
  forallb (fun c => negb (is_convolution_call c)) cs = true ->
  exists s' : State, run_calls cs s = Ok s'.
Proof.
  revert s. induction cs as [| c cs IH]; intros s Hplain.
  - now exists s.
  - cbn [forallb] in Hplain. apply andb_true_iff in Hplain as [Hc Hcs].
    destruct c; try discriminate Hc; cbn [run_calls run_call]; now apply IH.
Qed.

(** X12: [setRadial2Params] writes the three radial2 members and nothing
    else, and what it stored is read back after any sequence of calls of the
    other mutators (the seven plain setters, [preConcatMatrix],
    [setClampNoFilter], [setConvolutionParams]) that returns; a sequence
    without [setConvolutionParams] always returns. *)
Theorem setRadial2Params_persists (centerX1 radius0 : S) (posRoot : bool)
    (s : State) :
  let s' := setRadial2Params centerX1 radius0 posRoot s in
  (getWrapX s' = getWrapX s /\ getWrapY s' = getWrapY s /\
   getSampleMode s' = getSampleMode s /\ getFilter s' = getFilter s /\
   getMatrix s' = getMatrix s /\ getTextureDomain s' = getTextureDomain s /\
   swapsRAndB s' = swapsRAndB s /\ getKernelWidth s' = getKernelWidth s /\
   getKernel s' = getKernel s /\
   getImageIncrement s' = getImageIncrement s) /\
  (forall (cs : list mutator_call) (s'' : State),
     run_calls cs s' = Ok s'' ->
     getRadial2CenterX1 s'' = centerX1 /\
     getRadial2Radius0 s'' = radius0 /\
     isRadial2PosRoot s'' = posRoot) /\
  (forall cs : list mutator_call,
     forallb (fun c => negb (is_convolution_call c)) cs = true ->
     exists s'' : State, run_calls cs s' = Ok s'').
Proof.
  split; [| split].
  - repeat split.
  - intros cs s'' Hrun.
    destruct (run_calls_keep_radial2 cs _ s'' Hrun) as (E1 & E2 & E3).
    unfold getRadial2CenterX1, getRadial2Radius0, isRadial2PosRoot.
    rewrite E1, E2, E3. cbn. repeat split. apply SkToBool_b2z.
  - intros cs Hplain. now apply run_calls_plain_return.
Qed.

End Construction.

Section MatrixConcat.
Context {S : Type} `{ScalarOps S}.

Hypothesis scalar_semiring :
  semi_ring_theory scalar_zero GR_Scalar1 scalar_add scalar_mul eq.

Add Ring scalar_ring' : scalar_semiring.






End MatrixConcat.

(** * The further properties on concrete scalars *)

Section FixedPointRuns.
#[local] Existing Instance FixedScalar.

(** Three weights written over the stale storage. *)
Lemma setConvolutionParams_kernel_tail_witness :
  exists s' : GrSamplerState Z,
    setConvolutionParams 3 (Some kernel3) None stale_storage = Ok s' /\
    (forall i : nat, (i < Z.to_nat 3)%nat -> getKernel s' !! i = kernel3 !! i) /\
    (forall i : nat,
       (Z.to_nat 3 <= i)%nat ->
       getKernel s' !! i = getKernel stale_storage !! i) /\
    length (getKernel s') = length (getKernel stale_storage).
Proof.
  eexists. split; [reflexivity |].
  apply (setConvolutionParams_kernel_tail 3 kernel3 None stale_storage).
  reflexivity.
Defined.

(** The same call leaves the sweep mode, the convolution filter and the swap
    flag of the stale storage in place. *)
Lemma setConvolutionParams_frame_witness :
  exists s' : GrSamplerState Z,
    setConvolutionParams 3 (Some kernel3) None stale_storage = Ok s' /\
    getKernelWidth s' = 3 /\
    getSampleMode s' = kSweep_SampleMode /\
    getFilter s' = kConvolution_Filter /\
    swapsRAndB s' = true.
Proof.
  eexists. split; [reflexivity |].
  destruct (setConvolutionParams_frame 3 (Some kernel3) None stale_storage
              _ eq_refl)
    as ([_ Hw] & _ & _ & Hm & Hf & _ & Hs & _).
  split; [exact Hw |]. split; [exact Hm |]. split; [exact Hf | exact Hs].
Defined.

(** Width 5 with an array of three weights: the array is read past its end. *)
Lemma setConvolutionParams_outcome_witness :
  storage_ok stale_storage /\
  setConvolutionParams 5 (Some kernel3) None stale_storage = OutOfBounds.
Proof.
  assert (Hs : storage_ok stale_storage) by (split; reflexivity).
  split; [exact Hs |].
  destruct (setConvolutionParams_outcome 5 (Some kernel3) None stale_storage Hs)
    as (_ & Hout & _).
  apply Hout. split; [lia |].
  intros [Hlen _]. cbn in Hlen. lia.
Defined.

(** Width 3 with weights, then width 7 with a null kernel: weights 3 to 6 are
    those of the stale storage. *)
Lemma setConvolutionParams_then_null_kernel_witness :
  exists s1 s2 : GrSamplerState Z,
    setConvolutionParams 3 (Some kernel3) None stale_storage = Ok s1 /\
    setConvolutionParams 7 None (Some increment_x) s1 = Ok s2 /\
    getKernelWidth s2 = 7 /\
    (forall i : nat, (i < Z.to_nat 3)%nat -> getKernel s2 !! i = kernel3 !! i) /\
    (forall i : nat,
       (Z.to_nat 3 <= i)%nat ->
       getKernel s2 !! i = getKernel stale_storage !! i).
Proof.
  eexists. eexists. split; [reflexivity |]. split; [reflexivity |].
  apply (setConvolutionParams_then_null_kernel 3 7 kernel3 None
           (Some increment_x) stale_storage _ _ eq_refl eq_refl).
Defined.

(** The same call twice. *)
Lemma setConvolutionParams_idempotent_witness :
  exists s' : GrSamplerState Z,
    setConvolutionParams 3 (Some kernel3) (Some increment_x) stale_storage
      = Ok s' /\
    setConvolutionParams 3 (Some kernel3) (Some increment_x) s' = Ok s'.
Proof.
  eexists. split; [reflexivity |].
  apply (setConvolutionParams_idempotent 3 (Some kernel3) (Some increment_x)
           stale_storage).
  reflexivity.
Defined.

(** A sampler built by the five-argument constructor in the stale storage. *)
Lemma fresh_sampler_predicates_witness :
  scalar_eq (SkIntToScalar 0) scalar_zero = true /\
  scalar_eq GR_Scalar1 scalar_zero = false /\
  hasTextureDomain
    (construct (NewFull kMirror_WrapMode kClamp_WrapMode kRadial2_SampleMode
                  (fMatrix stale_storage) kBilinear_Filter) stale_storage)
    = false /\
  radial2IsDegenerate
    (construct (NewFull kMirror_WrapMode kClamp_WrapMode kRadial2_SampleMode
                  (fMatrix stale_storage) kBilinear_Filter) stale_storage)
    = false /\
  hasTextureDomain (setClampNoFilter stale_storage) = false /\
  hasTextureDomain
    (setClampNoFilter (setTextureDomain inverted_rect stale_storage)) = false.
Proof.
  assert (H0 : scalar_eq (SkIntToScalar 0) scalar_zero = true) by reflexivity.
  assert (H1 : scalar_eq GR_Scalar1 scalar_zero = false) by reflexivity.
  split; [exact H0 |]. split; [exact H1 |].
  apply (fresh_sampler_predicates H0 H1
           (NewFull kMirror_WrapMode kClamp_WrapMode kRadial2_SampleMode
              (fMatrix stale_storage) kBilinear_Filter)
           inverted_rect stale_storage stale_storage).
Defined.

(** The sampler's own increment array passed as kernel, twice: weights 0
    and 1 are 11 and 12 after the first call, 0 and 0 after the second. *)
Example setConvolutionParams_aliased_twice :
  exists s1 s2 : GrSamplerState Z,
    setConvolutionParams 2 (Some (getImageIncrement stale_storage)) None
      stale_storage = Ok s1 /\
    setConvolutionParams 2 (Some (getImageIncrement s1)) None s1 = Ok s2 /\
    take 2 (getKernel s1) = [11; 12] /\
    take 2 (getKernel s2) = [0; 0] /\
    s2 <> s1.
Proof.
  eexists. eexists. split; [reflexivity |]. split; [reflexivity |].
  repeat split. discriminate.
Qed.

(** Radial2 parameters read back after a run of other mutator calls. *)
Example setRadial2Params_after_calls :
  exists s' : GrSamplerState Z,
    run_calls
      [CallSetFilter kConvolution_Filter;
       CallSetConvolutionParams 3 (Some kernel3) None;
       CallSetWrapX kRepeat_WrapMode;
       CallSetClampNoFilter;
       CallPreConcatMatrix fxA;
       CallSetWrapX kMirror_WrapMode;
       CallSetSampleMode kRadial2_SampleMode]
      (setRadial2Params GR_Scalar1 fixed_half true stale_storage) = Ok s' /\
    getRadial2CenterX1 s' = 65536 /\
    getRadial2Radius0 s' = 32768 /\
    isRadial2PosRoot s' = true /\
    getWrapX s' = kMirror_WrapMode.
Proof.
  eexists. split; [reflexivity |]. repeat split.
Qed.

End FixedPointRuns.

Section ExactRuns.
#[local] Existing Instance ExactScalar.




End ExactRuns.
